(** * PocketbaseArduino: the request-building client, embedded and verified

    A shallow embedding of [src/PocketbaseArduino.cpp]: the root client
    ([PocketbaseArduino]), the per-collection accessor
    ([PocketbaseCollection]) and its three operations [getList], [getOne]
    and [create].

    The operations talk to collaborators that are not part of the file
    (the WiFi link, the HTTP client, the serial console, the [pb] object
    and the JSON decoder).  Their answers are gathered in a record
    [World]; every call made to them is recorded, in program order, in a
    trace of [event]s.  C++ control flow ([return] from the middle of a
    block, [throw], [try]/[catch]) is kept by a three-way [outcome]. *)

From Stdlib Require Import String Ascii List ZArith NArith Bool Lia.
From Stdlib Require Import DecimalString.
From Stdlib Require DecimalPos DecimalN.
Import ListNotations.

Local Open Scope string_scope.
Local Open Scope Z_scope.

(** ** Strings *)

(** Arduino's [String(unsigned int)] and [String(int)] / [print(int)]:
    the decimal rendering, base 10, no padding, a leading minus sign for
    negative values. *)
Definition String_of_uint (n : N) : string :=
  NilZero.string_of_uint (N.to_uint n).

Definition String_of_int (z : Z) : string :=
  NilZero.string_of_int (Z.to_int z).

(** The double-quote character, and a JSON string literal. *)
Definition dquote : string := String (ascii_of_nat 34) EmptyString.

Definition quoted (s : string) : string := dquote ++ s ++ dquote.

(** ** Data model *)

(** Modelled from the spec: the class of the member [pb], with its
    constructor and [getBaseUrl()], [getRecord()] and [addRecord()], is
    declared in [PocketbaseArduino.h], which is not part of the sources.
    The spec says that the client holds a base URL string, immutable
    after construction, set once and reused for all derived requests: the
    object is that string, [getBaseUrl()] reads it, and the two transport
    calls leave it alone. *)
Record Pocketbase : Type := mkPocketbase { baseUrl : string }.

(** Objects live in a heap; an accessor reaches the client's [pb]
    through its address, so that two accessors of one client alias the
    same object. *)
Definition addr : Type := nat.

Definition heap : Type := addr -> Pocketbase.

Definition heap_update (h : heap) (a : addr) (o : Pocketbase) : heap :=
  fun b => if Nat.eqb b a then o else h b.

(** The root client: its member [pb], by the address where it lives. *)
Record PocketbaseArduino : Type := mkPocketbaseArduino { pb : addr }.

(** Modelled from the spec: the members of [PocketbaseCollection] are
    declared in the absent header; the spec says the accessor holds a
    reference to the client and a collection name string, which are the
    two arguments that [collection] passes to its constructor. *)
Record PocketbaseCollection : Type := mkPocketbaseCollection {
  pb_ref : addr;
  collectionName : string
}.

(** Modelled from the spec: the class [PocketbaseArduinoException], the
    domain error, is declared in the absent header; the source builds it
    from a message and calls [what()] on it, and the spec says it is
    caught at the call boundary where it is raised, so it is a subclass
    of [std::exception]. *)
Inductive exn : Type :=
| std_exception (what : string)
| PocketbaseArduinoException (what : string).

Definition what (e : exn) : string :=
  match e with
  | std_exception m => m
  | PocketbaseArduinoException m => m
  end.

(** [catch (const std::exception &e)] accepts both classes,
    [catch (const PocketbaseArduinoException &e)] only the second. *)
Definition is_std_exception (e : exn) : bool := true.

Definition is_PocketbaseArduinoException (e : exn) : bool :=
  match e with
  | PocketbaseArduinoException _ => true
  | std_exception _ => false
  end.

(** [wl_status_t] of the ESP8266 WiFi stack. *)
Inductive wl_status_t : Type :=
| WL_NO_SHIELD
| WL_IDLE_STATUS
| WL_NO_SSID_AVAIL
| WL_SCAN_COMPLETED
| WL_CONNECTED
| WL_CONNECT_FAILED
| WL_CONNECTION_LOST
| WL_WRONG_PASSWORD
| WL_DISCONNECTED.

Definition wl_status_eqb (a b : wl_status_t) : bool :=
  match a, b with
  | WL_NO_SHIELD, WL_NO_SHIELD
  | WL_IDLE_STATUS, WL_IDLE_STATUS
  | WL_NO_SSID_AVAIL, WL_NO_SSID_AVAIL
  | WL_SCAN_COMPLETED, WL_SCAN_COMPLETED
  | WL_CONNECTED, WL_CONNECTED
  | WL_CONNECT_FAILED, WL_CONNECT_FAILED
  | WL_CONNECTION_LOST, WL_CONNECTION_LOST
  | WL_WRONG_PASSWORD, WL_WRONG_PASSWORD
  | WL_DISCONNECTED, WL_DISCONNECTED => true
  | _, _ => false
  end.

(** ** Collaborators *)

(** What the collaborators answer.  The HTTP client's answers depend on
    the URL it was opened on; [json_code] stands for
    [deserializeJson(doc, body); doc["code"].as<int>()].

    Every collaborator answers by returning a value: none of them
    throws.  The only exceptions of a run are the ones that the
    operations throw themselves, so the handler of [getList], which could
    only serve an exception of a collaborator, is never entered here, and
    every statement below is about runs in which the collaborators
    return. *)
Record World : Type := mkWorld {
  WiFi_status : wl_status_t;
  HTTPClient_GET : string -> Z;
  HTTPClient_getString : string -> string;
  Pocketbase_getRecord : string -> string;
  Pocketbase_addRecord :
    string -> string -> option string -> option string -> option string -> bool;
  json_code : string -> Z
}.

(** The calls made to the collaborators, as the trace records them. *)
Inductive event : Type :=
| EvWiFiStatus (st : wl_status_t)
| EvHttpBegin (url : string)
| EvHttpGET (url : string) (code : Z)
| EvHttpGetString (body : string)
| EvHttpEnd
| EvHttpClientDestroy       (* [~HTTPClient()], when its block is left *)
| EvWiFiClientDestroy       (* [~WiFiClient()], when its block is left *)
| EvSerialPrint (s : string)
| EvSerialPrintln (s : string)
| EvGetRecord (url : string) (body : string)
| EvAddRecord (collection jsonData : string)
              (id expand fields : option string) (ok : bool).

Definition trace : Type := list event.

(** ** The monad: collaborators, store, trace, early return, exceptions *)

Inductive outcome (A : Type) : Type :=
| Normal (a : A)          (* the statement completed *)
| Return (r : string)     (* [return r;] was executed *)
| Throw (e : exn).        (* an exception is in flight *)

Arguments Normal {A} a.
Arguments Return {A} r.
Arguments Throw {A} e.

Definition M (A : Type) : Type :=
  World -> heap -> outcome A * heap * trace.

Definition ret {A} (a : A) : M A := fun _ s => (Normal a, s, []).

Definition bind {A B} (m : M A) (f : A -> M B) : M B :=
  fun w s =>
    match m w s with
    | (Normal a, s1, t1) =>
        match f a w s1 with
        | (o, s2, t2) => (o, s2, (t1 ++ t2)%list)
        end
    | (Return r, s1, t1) => (Return r, s1, t1)
    | (Throw e, s1, t1) => (Throw e, s1, t1)
    end.

Declare Scope cpp_scope.
Delimit Scope cpp_scope with cpp.
Notation "x <- m ;; k" := (bind m (fun x => k))
  (at level 61, m at next level, right associativity) : cpp_scope.
Notation "m ;; k" := (bind m (fun _ => k))
  (at level 61, right associativity) : cpp_scope.
Local Open Scope cpp_scope.

Definition return_ {A} (r : string) : M A := fun _ s => (Return r, s, []).

Definition throw {A} (e : exn) : M A := fun _ s => (Throw e, s, []).

(** [try { body } catch (const C1 &e) { h1 } catch (const C2 &e) { h2 } ...]:
    each clause is a test on the class of the exception and a handler;
    the first clause that accepts the exception runs, and an exception
    no clause accepts (or one thrown by a handler) goes on. *)
Definition clause (A : Type) : Type := (exn -> bool) * (exn -> M A).

Fixpoint select_clause {A} (e : exn) (cs : list (clause A))
  : option (exn -> M A) :=
  match cs with
  | [] => None
  | (accepts, handler) :: rest =>
      if accepts e then Some handler else select_clause e rest
  end.

Definition try_catch {A} (body : M A) (cs : list (clause A)) : M A :=
  fun w s =>
    match body w s with
    | (Throw e, s1, t1) =>
        match select_clause e cs with
        | Some handler =>
            match handler e w s1 with
            | (o, s2, t2) => (o, s2, (t1 ++ t2)%list)
            end
        | None => (Throw e, s1, t1)
        end
    | r => r
    end.

(** A block that declares local objects: however the block is left (at
    its end, by [return] or by an exception), their destructors run, in
    the reverse order of the declarations. *)
Definition with_locals {A} (destructors : trace) (body : M A) : M A :=
  fun w s =>
    match body w s with
    | (o, s1, t1) => (o, s1, (t1 ++ destructors)%list)
    end.

Definition emit (ev : event) : M unit := fun _ s => (Normal tt, s, [ev]).

Definition ask {A} (f : World -> A) : M A := fun w s => (Normal (f w), s, []).

(** [pb.getBaseUrl()] reads the client's object in the heap. *)
Definition pb_getBaseUrl (r : addr) : M string :=
  fun _ h => (Normal (baseUrl (h r)), h, []).

Definition WiFi_status_call : M wl_status_t :=
  st <- ask WiFi_status ;; emit (EvWiFiStatus st) ;; ret st.

Definition http_begin (url : string) : M unit := emit (EvHttpBegin url).

Definition http_GET (url : string) : M Z :=
  code <- ask (fun w => HTTPClient_GET w url) ;;
  emit (EvHttpGET url code) ;; ret code.

Definition http_getString (url : string) : M string :=
  body <- ask (fun w => HTTPClient_getString w url) ;;
  emit (EvHttpGetString body) ;; ret body.

Definition http_end : M unit := emit EvHttpEnd.

Definition Serial_print (s : string) : M unit := emit (EvSerialPrint s).

Definition Serial_println (s : string) : M unit := emit (EvSerialPrintln s).

Definition pb_getRecord (url : string) : M string :=
  body <- ask (fun w => Pocketbase_getRecord w url) ;;
  emit (EvGetRecord url body) ;; ret body.

Definition pb_addRecord (collection jsonData : string)
    (id expand fields : option string) : M bool :=
  ok <- ask (fun w => Pocketbase_addRecord w collection jsonData id expand fields) ;;
  emit (EvAddRecord collection jsonData id expand fields ok) ;; ret ok.

Definition deserialize_code (body : string) : M Z :=
  ask (fun w => json_code w body).

(** Projections of a run. *)
Definition outcome_of {A} (r : outcome A * heap * trace) : outcome A :=
  fst (fst r).

Definition heap_of {A} (r : outcome A * heap * trace) : heap := snd (fst r).

Definition trace_of {A} (r : outcome A * heap * trace) : trace := snd r.

(** ** [PocketbaseArduino]: constructor and [collection] *)

(** [PocketbaseArduino::PocketbaseArduino(const char *BASE_URL) : pb(BASE_URL) {}],
    for a client placed at address [self]. *)
Definition PocketbaseArduino_new (self : addr) (BASE_URL : string) (h : heap)
  : PocketbaseArduino * heap :=
  ({| pb := self |}, heap_update h self (mkPocketbase BASE_URL)).

(** [return PocketbaseCollection(pb, collectionName);] *)
Definition collection (this : PocketbaseArduino) (name : string)
  : PocketbaseCollection :=
  {| pb_ref := pb this; collectionName := name |}.

(** ** [PocketbaseCollection::getList] *)

(** Lines 66-95: the URL, built by successive [+=].  The two
    [unsigned int] are natural numbers, a [const char *] that may be
    [nullptr] is an [option string]. *)
Definition getList_apiUrl (base name : string) (page perPage : N)
    (sort filter expand fields : option string) (skipTotal : bool) : string :=
  let apiUrl := ((base ++ "/api/collections/") ++ name) ++ "/records" in
  let apiUrl := apiUrl ++ ("?page=" ++ String_of_uint page) in
  let apiUrl := apiUrl ++ ("&perPage=" ++ String_of_uint perPage) in
  let apiUrl :=
    match sort with
    | Some v => apiUrl ++ ("&sort=" ++ v)
    | None => apiUrl
    end in
  let apiUrl :=
    match filter with
    | Some v => apiUrl ++ ("&filter=" ++ v)
    | None => apiUrl
    end in
  let apiUrl :=
    match expand with
    | Some v => apiUrl ++ ("&expand=" ++ v)
    | None => apiUrl
    end in
  let apiUrl :=
    match fields with
    | Some v => apiUrl ++ ("&fields=" ++ v)
    | None => apiUrl
    end in
  let apiUrl :=
    if skipTotal then apiUrl ++ "&skipTotal=1" else apiUrl in
  apiUrl.

(** The [try] block, lines 64-129. *)
Definition getList_try (this : PocketbaseCollection) (page perPage : N)
    (sort filter expand fields : option string) (skipTotal : bool) : M unit :=
  base <- pb_getBaseUrl (pb_ref this) ;;
  let apiUrl :=
    getList_apiUrl base (collectionName this) page perPage
                   sort filter expand fields skipTotal in
  st <- WiFi_status_call ;;
  if wl_status_eqb st WL_CONNECTED then
    (* WiFiClient client; HTTPClient http; *)
    with_locals [EvHttpClientDestroy; EvWiFiClientDestroy] (
      http_begin apiUrl ;;
      httpResponseCode <- http_GET apiUrl ;;
      (if httpResponseCode >? 0 then
         Serial_print "HTTP Response code: " ;;
         Serial_println (String_of_int httpResponseCode) ;;
         result <- http_getString apiUrl ;;
         return_ result
       else
         Serial_print "Error code: " ;;
         Serial_println (String_of_int httpResponseCode)) ;;
      http_end)
  else
    Serial_println "WiFi Disconnected".

Definition log_exception (e : exn) : M unit :=
  Serial_println ("Exception occurred during the request: " ++ what e).

Definition getList (this : PocketbaseCollection) (page perPage : N)
    (sort filter expand fields : option string) (skipTotal : bool) : M unit :=
  try_catch
    (getList_try this page perPage sort filter expand fields skipTotal)
    [(is_std_exception, log_exception)] ;;
  return_ EmptyString.

(** ** [PocketbaseCollection::getOne] *)

(** Lines 156-169. *)
Definition getOne_apiUrl (base name recordId : string)
    (expand fields : option string) : string :=
  let apiUrl :=
    (((base ++ "/api/collections/") ++ name) ++ "/records/") ++ recordId in
  match expand with
  | Some e =>
      let apiUrl := apiUrl ++ ("?expand=" ++ e) in
      match fields with
      | Some f => apiUrl ++ ("&fields=" ++ f)
      | None => apiUrl
      end
  | None =>
      match fields with
      | Some f => apiUrl ++ ("?fields=" ++ f)
      | None => apiUrl
      end
  end.

Definition not_found : exn :=
  PocketbaseArduinoException "Error: The requested resource wasn't found.".

Definition forbidden : exn :=
  PocketbaseArduinoException "Error: Only admins can access this action.".

(** The [try] block, lines 154-198. *)
Definition getOne_try (this : PocketbaseCollection) (recordId : string)
    (expand fields : option string) : M unit :=
  base <- pb_getBaseUrl (pb_ref this) ;;
  let apiUrl :=
    getOne_apiUrl base (collectionName this) recordId expand fields in
  result <- pb_getRecord apiUrl ;;
  code <- deserialize_code result ;;
  if code =? 404 then throw not_found
  else if code =? 403 then throw forbidden
  else return_ result.

Definition getOne (this : PocketbaseCollection) (recordId : string)
    (expand fields : option string) : M unit :=
  try_catch (getOne_try this recordId expand fields)
    [(is_std_exception, log_exception)] ;;
  return_ EmptyString.

(** ** [PocketbaseCollection::create] *)

Definition create_failed : exn :=
  PocketbaseArduinoException "Error: Failed to create record.".

(** The [try] block, lines 221-233. *)
Definition create_try (this : PocketbaseCollection) (jsonData : string)
    (id expand fields : option string) : M unit :=
  success <- pb_addRecord (collectionName this) jsonData id expand fields ;;
  (if negb success then throw create_failed else ret tt) ;;
  return_ EmptyString.

Definition create (this : PocketbaseCollection) (jsonData : string)
    (id expand fields : option string) : M unit :=
  try_catch (create_try this jsonData id expand fields)
    [(is_PocketbaseArduinoException, fun e => Serial_println (what e));
     (is_std_exception, log_exception)] ;;
  return_ EmptyString.

(** ** Calls, and sequences of calls *)

(** One call of an operation of an accessor, with its arguments. *)
Inductive call : Type :=
| CallGetList (page perPage : N) (sort filter expand fields : option string)
              (skipTotal : bool)
| CallGetOne (recordId : string) (expand fields : option string)
| CallCreate (jsonData : string) (id expand fields : option string).

Definition perform (this : PocketbaseCollection) (c : call) : M unit :=
  match c with
  | CallGetList page perPage sort filter expand fields skipTotal =>
      getList this page perPage sort filter expand fields skipTotal
  | CallGetOne recordId expand fields => getOne this recordId expand fields
  | CallCreate jsonData id expand fields =>
      create this jsonData id expand fields
  end.

(** A script: calls made one after the other, each through some accessor
    and each with the answers the collaborators give at that time.  The
    heap one call leaves is the heap the next one starts in. *)
Fixpoint run_script (script : list (PocketbaseCollection * call * World))
    (h : heap) : heap :=
  match script with
  | [] => h
  | (this, c, w) :: rest => run_script rest (heap_of (perform this c w h))
  end.

(** The URL a call hands to the transport, when an event carries one. *)
Definition url_of (ev : event) : option string :=
  match ev with
  | EvHttpBegin url => Some url
  | EvHttpGET url _ => Some url
  | EvGetRecord url _ => Some url
  | _ => None
  end.

(** The URL that a call builds from the base URL, the collection name
    and its arguments; [create] builds none. *)
Definition request_url (base name : string) (c : call) : option string :=
  match c with
  | CallGetList page perPage sort filter expand fields skipTotal =>
      Some (getList_apiUrl base name page perPage sort filter expand fields
                           skipTotal)
  | CallGetOne recordId expand fields =>
      Some (getOne_apiUrl base name recordId expand fields)
  | CallCreate _ _ _ _ => None
  end.

(** The events that are calls of the HTTP transport. *)
Definition is_transport_call (ev : event) : bool :=
  match ev with
  | EvHttpBegin _ | EvHttpGET _ _ | EvHttpGetString _ | EvHttpEnd
  | EvHttpClientDestroy | EvWiFiClientDestroy
  | EvGetRecord _ _ | EvAddRecord _ _ _ _ _ _ => true
  | EvWiFiStatus _ | EvSerialPrint _ | EvSerialPrintln _ => false
  end.

Definition is_connectivity_check (ev : event) : bool :=
  match ev with
  | EvWiFiStatus _ => true
  | _ => false
  end.

Definition is_http_begin (ev : event) : bool :=
  match ev with
  | EvHttpBegin _ => true
  | _ => false
  end.

Definition is_http_end (ev : event) : bool :=
  match ev with
  | EvHttpEnd => true
  | _ => false
  end.

(** ** The query string, as the specification words it *)

(** A query parameter: its name and its value. *)
Definition param : Type := (string * string)%type.

Fixpoint render_more (ps : list param) : string :=
  match ps with
  | [] => EmptyString
  | (k, v) :: rest => "&" ++ k ++ "=" ++ v ++ render_more rest
  end.

(** [?k1=v1&k2=v2...], and nothing at all for no parameter. *)
Definition render_query (ps : list param) : string :=
  match ps with
  | [] => EmptyString
  | (k, v) :: rest => "?" ++ k ++ "=" ++ v ++ render_more rest
  end.

Definition supplied (key : string) (v : option string) : list param :=
  match v with
  | Some x => [(key, x)]
  | None => []
  end.

(** The parameters of [getList] as the specification lists them: page
    and perPage always, each optional one when it is given, skipTotal
    when the flag is set, with the value 1; in that order. *)
Definition getList_query_spec (page perPage : N)
    (sort filter expand fields : option string) (skipTotal : bool)
  : list param :=
  ([("page", String_of_uint page); ("perPage", String_of_uint perPage)]
   ++ supplied "sort" sort
   ++ supplied "filter" filter
   ++ supplied "expand" expand
   ++ supplied "fields" fields
   ++ (if skipTotal then [("skipTotal", "1")] else []))%list.

(** Reading a query string back, the way a server does: drop the
    question mark, cut at every ampersand, and cut each piece at its
    first equals sign. *)
Fixpoint has_char (c : ascii) (s : string) : bool :=
  match s with
  | EmptyString => false
  | String d rest => Ascii.eqb d c || has_char c rest
  end.

Fixpoint split_on (sep : ascii) (s : string) : list string :=
  match s with
  | EmptyString => [EmptyString]
  | String c rest =>
      if Ascii.eqb c sep then EmptyString :: split_on sep rest
      else
        match split_on sep rest with
        | piece :: pieces => String c piece :: pieces
        | [] => [String c EmptyString]
        end
  end.

Fixpoint cut_at (sep : ascii) (s : string) : string * string :=
  match s with
  | EmptyString => (EmptyString, EmptyString)
  | String c rest =>
      if Ascii.eqb c sep then (EmptyString, rest)
      else let (k, v) := cut_at sep rest in (String c k, v)
  end.

Definition parse_query (q : string) : list param :=
  match q with
  | EmptyString => []
  | String _ rest => map (cut_at "=") (split_on "&" rest)
  end.

(** A parameter that survives the reading: no ampersand in it, and no
    equals sign in its name. *)
Definition plain_param (p : param) : bool :=
  negb (has_char "&" (fst p)) && negb (has_char "=" (fst p))
  && negb (has_char "&" (snd p)).

Definition plain_value (v : option string) : bool :=
  match v with
  | Some x => negb (has_char "&" x)
  | None => true
  end.

Definition records_endpoint (base name : string) : string :=
  base ++ "/api/collections/" ++ name ++ "/records".

Definition record_endpoint (base name recordId : string) : string :=
  base ++ "/api/collections/" ++ name ++ "/records/" ++ recordId.

(** ** Observations on traces *)

(** The events that put a request on the wire: [GET] of the HTTP client,
    [getRecord] and [addRecord] of [pb]. *)
Definition is_request (ev : event) : bool :=
  match ev with
  | EvHttpGET _ _ | EvGetRecord _ _ | EvAddRecord _ _ _ _ _ _ => true
  | _ => false
  end.

Definition count_requests (t : trace) : nat :=
  List.length (List.filter is_request t).

(** The destructors of the locals of [getList]. *)
Definition is_destroy (ev : event) : bool :=
  match ev with
  | EvHttpClientDestroy | EvWiFiClientDestroy => true
  | _ => false
  end.

(** The trace of a script: the traces of its calls, one after the
    other. *)
Fixpoint script_trace (script : list (PocketbaseCollection * call * World))
    (h : heap) : trace :=
  match script with
  | [] => []
  | (this, c, w) :: rest =>
      (trace_of (perform this c w h)
       ++ script_trace rest (heap_of (perform this c w h)))%list
  end.

(** The steps of a script that are not a [getList] without a link. *)
Definition issues_request (step : PocketbaseCollection * call * World) : bool :=
  match step with
  | (_, CallGetList _ _ _ _ _ _ _, w) =>
      wl_status_eqb (WiFi_status w) WL_CONNECTED
  | (_, _, _) => true
  end.

(** What the serial console shows: [print] writes its text, [println]
    its text and a carriage return and line feed. *)
Definition crlf : string :=
  String (ascii_of_nat 13) (String (ascii_of_nat 10) EmptyString).

Fixpoint console (t : trace) : string :=
  match t with
  | [] => EmptyString
  | EvSerialPrint s :: rest => s ++ console rest
  | EvSerialPrintln s :: rest => s ++ crlf ++ console rest
  | _ :: rest => console rest
  end.

(** ** Concrete worlds *)

(** A small decoder for concrete runs: the integer that follows the
    first [code] key of the body, and 0 when there is none. *)
Definition digit_of (c : ascii) : option Z :=
  let n := Z.of_nat (nat_of_ascii c) in
  if (48 <=? n) && (n <=? 57) then Some (n - 48) else None.

Fixpoint read_digits (s : string) (acc : Z) : Z :=
  match s with
  | EmptyString => acc
  | String c rest =>
      match digit_of c with
      | Some d => read_digits rest (10 * acc + d)
      | None => acc
      end
  end.

Definition code_key : string := quoted "code" ++ ":".

Fixpoint scan_code (s : string) : Z :=
  match s with
  | EmptyString => 0
  | String _ rest =>
      if prefix code_key s
      then read_digits (substring (String.length code_key) (String.length s) s) 0
      else scan_code rest
  end.

(** [{"id":"abc"}] *)
Definition body_abc : string :=
  "{" ++ quoted "id" ++ ":" ++ quoted "abc" ++ "}".

(** [{"code":N,"message":"...","data":{}}], PocketBase's error envelope. *)
Definition error_body (code : Z) (message : string) : string :=
  "{" ++ quoted "code" ++ ":" ++ String_of_int code ++ ","
      ++ quoted "message" ++ ":" ++ quoted message ++ ","
      ++ quoted "data" ++ ":{}}".

(** A server that answers every request with [status] and [body]. *)
Definition serving (st : wl_status_t) (status : Z) (body : string)
    (created : bool) : World :=
  {| WiFi_status := st;
     HTTPClient_GET := fun _ => status;
     HTTPClient_getString := fun _ => body;
     Pocketbase_getRecord := fun _ => body;
     Pocketbase_addRecord := fun _ _ _ _ _ => created;
     json_code := scan_code |}.

Definition set_WiFi_status (w : World) (st : wl_status_t) : World :=
  {| WiFi_status := st;
     HTTPClient_GET := HTTPClient_GET w;
     HTTPClient_getString := HTTPClient_getString w;
     Pocketbase_getRecord := Pocketbase_getRecord w;
     Pocketbase_addRecord := Pocketbase_addRecord w;
     json_code := json_code w |}.

(** A heap with a client for [http://pb.local:8090] at address 0, and
    its accessor for the collection [posts]. *)
Definition heap0 : heap := fun _ => mkPocketbase EmptyString.

Definition demo_client : PocketbaseArduino :=
  fst (PocketbaseArduino_new 0%nat "http://pb.local:8090" heap0).

Definition demo_heap : heap :=
  snd (PocketbaseArduino_new 0%nat "http://pb.local:8090" heap0).

Definition posts : PocketbaseCollection := collection demo_client "posts".

(** * Verification *)

(** ** Strings *)

Lemma append_assoc (s1 s2 s3 : string) : (s1 ++ s2) ++ s3 = s1 ++ (s2 ++ s3).
Proof.
  induction s1 as [|c s1 IH]; simpl.
  - reflexivity.
  - now rewrite IH.
Qed.

Lemma append_nil_r (s : string) : s ++ EmptyString = s.
Proof.
  induction s as [|c s IH]; simpl; [reflexivity | now rewrite IH].
Qed.

(** ** Connectivity test *)

Lemma wl_status_eqb_eq (a b : wl_status_t) :
  wl_status_eqb a b = true <-> a = b.
Proof.
  split.
  - destruct a, b; simpl; intros H; try reflexivity; discriminate H.
  - intros ->. now destruct b.
Qed.

Lemma wl_status_eqb_neq (a b : wl_status_t) :
  wl_status_eqb a b = false <-> a <> b.
Proof.
  split.
  - intros H E. apply wl_status_eqb_eq in E. congruence.
  - intros H. destruct (wl_status_eqb a b) eqn:E; [|reflexivity].
    apply wl_status_eqb_eq in E. contradiction.
Qed.

(** ** What a run of each operation is *)

Arguments getList_apiUrl : simpl never.
Arguments getOne_apiUrl : simpl never.
Arguments String_of_int : simpl never.

Section Runs.

Variable w : World.
Variable h : heap.
Variable this : PocketbaseCollection.

Let base : string := baseUrl (h (pb_ref this)).
Let name : string := collectionName this.

(** The three paths of [getList]. *)
Lemma getList_run page perPage sort filter expand fields skipTotal :
  let url :=
    getList_apiUrl base name page perPage sort filter expand fields skipTotal in
  let code := HTTPClient_GET w url in
  getList this page perPage sort filter expand fields skipTotal w h =
  if wl_status_eqb (WiFi_status w) WL_CONNECTED then
    if code >? 0 then
      (Return (HTTPClient_getString w url), h,
       [EvWiFiStatus (WiFi_status w); EvHttpBegin url; EvHttpGET url code;
        EvSerialPrint "HTTP Response code: ";
        EvSerialPrintln (String_of_int code);
        EvHttpGetString (HTTPClient_getString w url);
        EvHttpClientDestroy; EvWiFiClientDestroy])
    else
      (Return EmptyString, h,
       [EvWiFiStatus (WiFi_status w); EvHttpBegin url; EvHttpGET url code;
        EvSerialPrint "Error code: ";
        EvSerialPrintln (String_of_int code);
        EvHttpEnd; EvHttpClientDestroy; EvWiFiClientDestroy])
  else
    (Return EmptyString, h,
     [EvWiFiStatus (WiFi_status w); EvSerialPrintln "WiFi Disconnected"]).
Proof.
  intros url code. subst url code base name.
  unfold getList, getList_try, try_catch, bind, pb_getBaseUrl,
    WiFi_status_call, bind, ask, emit, ret. cbn.
  destruct (wl_status_eqb (WiFi_status w) WL_CONNECTED); cbn.
  - unfold with_locals, http_GET, bind, ask, emit, ret. cbn.
    destruct (HTTPClient_GET w _ >? 0); reflexivity.
  - reflexivity.
Qed.

(** The three paths of [getOne]. *)
Lemma getOne_run recordId expand fields :
  let url := getOne_apiUrl base name recordId expand fields in
  let body := Pocketbase_getRecord w url in
  getOne this recordId expand fields w h =
  if json_code w body =? 404 then
    (Return EmptyString, h,
     [EvGetRecord url body; EvSerialPrintln
        "Exception occurred during the request: Error: The requested resource wasn't found."])
  else if json_code w body =? 403 then
    (Return EmptyString, h,
     [EvGetRecord url body; EvSerialPrintln
        "Exception occurred during the request: Error: Only admins can access this action."])
  else (Return body, h, [EvGetRecord url body]).
Proof.
  intros url body. subst url body base name.
  unfold getOne, getOne_try, try_catch, bind, pb_getBaseUrl, pb_getRecord,
    deserialize_code, bind, ask, emit, ret. cbn.
  destruct (json_code w _ =? 404); [reflexivity|].
  destruct (json_code w _ =? 403); reflexivity.
Qed.

(** The [try] block of [getOne], before the handler. *)
Lemma getOne_try_run recordId expand fields :
  let url := getOne_apiUrl base name recordId expand fields in
  let body := Pocketbase_getRecord w url in
  getOne_try this recordId expand fields w h =
  (if json_code w body =? 404 then Throw not_found
   else if json_code w body =? 403 then Throw forbidden
   else Return body,
   h, [EvGetRecord url body]).
Proof.
  intros url body. subst url body base name.
  unfold getOne_try, bind, pb_getBaseUrl, pb_getRecord,
    deserialize_code, bind, ask, emit, ret. cbn.
  destruct (json_code w _ =? 404); [reflexivity|].
  destruct (json_code w _ =? 403); reflexivity.
Qed.

(** The two paths of [create], and its [try] block. *)
Lemma create_try_run jsonData id expand fields :
  let ok := Pocketbase_addRecord w name jsonData id expand fields in
  create_try this jsonData id expand fields w h =
  (if ok then Return EmptyString else Throw create_failed,
   h, [EvAddRecord name jsonData id expand fields ok]).
Proof.
  intros ok. subst ok base name.
  unfold create_try, pb_addRecord, bind, ask, emit, ret. cbn.
  destruct (Pocketbase_addRecord w _ _ _ _ _); reflexivity.
Qed.

Lemma create_run jsonData id expand fields :
  let ok := Pocketbase_addRecord w name jsonData id expand fields in
  create this jsonData id expand fields w h =
  (Return EmptyString, h,
   EvAddRecord name jsonData id expand fields ok
     :: if ok then []
        else [EvSerialPrintln "Error: Failed to create record."]).
Proof.
  intros ok. subst ok.
  unfold create, try_catch, bind. rewrite create_try_run. cbn.
  destruct (Pocketbase_addRecord w _ _ _ _ _); reflexivity.
Qed.

(** No operation writes the heap. *)
Lemma perform_heap (c : call) : heap_of (perform this c w h) = h.
Proof.
  destruct c; unfold perform.
  - rewrite getList_run.
    destruct (wl_status_eqb _ _); [destruct (_ >? 0)|]; reflexivity.
  - rewrite getOne_run.
    destruct (_ =? 404); [|destruct (_ =? 403)]; reflexivity.
  - rewrite create_run. reflexivity.
Qed.

End Runs.

Lemma run_script_heap (script : list (PocketbaseCollection * call * World))
    (h : heap) :
  run_script script h = h.
Proof.
  induction script as [|[[this c] w] rest IH]; simpl.
  - reflexivity.
  - now rewrite perform_heap.
Qed.

(** ** URL construction *)

Ltac flatten_appends :=
  repeat rewrite append_assoc; simpl; repeat rewrite append_nil_r.

(** The URL of [getList] is the records endpoint followed by the query
    string that the specification describes. *)
Lemma getList_apiUrl_spec base name page perPage sort filter expand fields
    skipTotal :
  getList_apiUrl base name page perPage sort filter expand fields skipTotal =
  records_endpoint base name
    ++ render_query
         (getList_query_spec page perPage sort filter expand fields skipTotal).
Proof.
  unfold getList_apiUrl, records_endpoint, getList_query_spec.
  destruct sort, filter, expand, fields, skipTotal;
    flatten_appends; reflexivity.
Qed.

(** *** Reading the query string back *)

Lemma has_char_append (c : ascii) (s t : string) :
  has_char c (s ++ t) = has_char c s || has_char c t.
Proof.
  induction s as [|d s IH]; simpl.
  - reflexivity.
  - now rewrite IH, orb_assoc.
Qed.

Lemma split_on_plain (sep : ascii) (s : string) :
  has_char sep s = false -> split_on sep s = [s].
Proof.
  induction s as [|c s IH]; simpl.
  - reflexivity.
  - intros H. apply orb_false_iff in H as [Hc Hs].
    rewrite Hc, (IH Hs). reflexivity.
Qed.

Lemma split_on_append (sep : ascii) (s t : string) :
  has_char sep s = false ->
  split_on sep (s ++ String sep t) = s :: split_on sep t.
Proof.
  induction s as [|c s IH]; simpl.
  - intros _. now rewrite Ascii.eqb_refl.
  - intros H. apply orb_false_iff in H as [Hc Hs].
    rewrite Hc, (IH Hs). reflexivity.
Qed.

Lemma cut_at_append (sep : ascii) (k v : string) :
  has_char sep k = false -> cut_at sep (k ++ String sep v) = (k, v).
Proof.
  induction k as [|c k IH]; simpl.
  - intros _. now rewrite Ascii.eqb_refl.
  - intros H. apply orb_false_iff in H as [Hc Hk].
    rewrite Hc, (IH Hk). reflexivity.
Qed.

Lemma plain_param_inv (k v : string) :
  plain_param (k, v) = true ->
  has_char "&" k = false /\ has_char "=" k = false /\ has_char "&" v = false.
Proof.
  unfold plain_param. simpl. intros H.
  apply andb_true_iff in H as [H Hv]. apply andb_true_iff in H as [Hk Hk'].
  now rewrite negb_true_iff in Hk, Hk', Hv.
Qed.

Lemma split_render_more (ps : list param) :
  forallb plain_param ps = true ->
  forall s, has_char "&" s = false ->
    split_on "&" (s ++ render_more ps)
    = s :: map (fun p => fst p ++ "=" ++ snd p) ps.
Proof.
  induction ps as [|[k v] ps IH]; simpl; intros Hps s Hs.
  - now rewrite append_nil_r, split_on_plain.
  - apply andb_true_iff in Hps as [Hp Hps].
    apply plain_param_inv in Hp as (Hk & _ & Hv).
    rewrite (split_on_append "&" s _ Hs). f_equal.
    replace (k ++ String "=" (v ++ render_more ps))
      with ((k ++ String "=" v) ++ render_more ps)
      by (now rewrite append_assoc).
    apply IH; [exact Hps|].
    rewrite has_char_append. simpl. now rewrite Hk, Hv.
Qed.

(** Rendering then reading gives the parameters back. *)
Lemma parse_render_query (ps : list param) :
  forallb plain_param ps = true -> parse_query (render_query ps) = ps.
Proof.
  destruct ps as [|[k v] ps]; [reflexivity|].
  intros Hps. pose proof Hps as Hall. simpl in Hps.
  apply andb_true_iff in Hps as [Hp Hps].
  pose proof (plain_param_inv k v Hp) as (Hk & Hk' & Hv).
  unfold render_query, parse_query. simpl.
  replace (k ++ String "=" (v ++ render_more ps))
    with ((k ++ String "=" v) ++ render_more ps)
    by (now rewrite append_assoc).
  rewrite (split_render_more ps Hps)
    by (rewrite has_char_append; simpl; now rewrite Hk, Hv).
  simpl. rewrite (cut_at_append "=" k v Hk').
  apply (f_equal (cons (k, v))).
  clear Hall Hp Hk Hk' Hv k v.
  induction ps as [|[k v] ps IH]; simpl; [reflexivity|].
  simpl in Hps. apply andb_true_iff in Hps as [Hp Hps].
  apply plain_param_inv in Hp as (_ & Hk' & _).
  rewrite (cut_at_append "=" k v Hk'), (IH Hps). reflexivity.
Qed.

Lemma digits_plain (d : Decimal.uint) :
  has_char "&" (NilEmpty.string_of_uint d) = false.
Proof. induction d; simpl; auto. Qed.

Lemma String_of_uint_plain (n : N) : has_char "&" (String_of_uint n) = false.
Proof.
  unfold String_of_uint, NilZero.string_of_uint.
  destruct (N.to_uint n) eqn:E; try reflexivity;
    rewrite <- E; apply digits_plain.
Qed.

(** A server reading the query string of [getList] finds the supplied
    parameters, and only them, as long as no value holds an ampersand
    (the values are appended as they are, without any escaping). *)
Lemma getList_query_parses page perPage sort filter expand fields skipTotal :
  plain_value sort = true -> plain_value filter = true ->
  plain_value expand = true -> plain_value fields = true ->
  parse_query
    (render_query
       (getList_query_spec page perPage sort filter expand fields skipTotal))
  = getList_query_spec page perPage sort filter expand fields skipTotal.
Proof.
  intros Hs Hf He Hd. apply parse_render_query.
  unfold getList_query_spec. rewrite !forallb_app.
  unfold plain_param at 1. simpl.
  rewrite !String_of_uint_plain. simpl.
  destruct sort, filter, expand, fields, skipTotal;
    unfold plain_param; simpl in *;
    rewrite ?Hs, ?Hf, ?He, ?Hd; reflexivity.
Qed.

(** C1: for every combination of the optional parameters of [getList],
    the URL is the records endpoint followed by a query string holding
    exactly the supplied parameters (page and perPage always, sort,
    filter, expand and fields when non-null, skipTotal=1 when the flag is
    true), in that fixed order; and this is the URL that [http.begin]
    receives whenever the request is issued. *)
Theorem getList_query_exact :
  forall (w : World) (h : heap) (this : PocketbaseCollection)
         (page perPage : N) (sort filter expand fields : option string)
         (skipTotal : bool),
    let base := baseUrl (h (pb_ref this)) in
    let name := collectionName this in
    let url :=
      records_endpoint base name
        ++ render_query
             (getList_query_spec page perPage sort filter expand fields
                                 skipTotal) in
    getList_apiUrl base name page perPage sort filter expand fields skipTotal
      = url
    /\ List.filter is_http_begin
         (trace_of (getList this page perPage sort filter expand fields
                            skipTotal w h))
       = if wl_status_eqb (WiFi_status w) WL_CONNECTED
         then [EvHttpBegin url] else [].
Proof.
  intros w h this page perPage sort filt expand fields skipTotal base name url.
  assert (E : getList_apiUrl base name page perPage sort filt expand fields
                skipTotal = url) by apply getList_apiUrl_spec.
  split; [exact E|].
  rewrite getList_run. fold base name. rewrite E.
  destruct (wl_status_eqb _ _); [destruct (_ >? 0)|]; reflexivity.
Qed.

(** C2: the four shapes of the URL of [getOne]: [?expand=E&fields=F]
    when both are set, [?expand=E] when only expand is, [?fields=F] when
    only fields is, and no query string when neither is; and this is the
    URL that [getRecord] receives. *)
Theorem getOne_query_cases :
  forall (w : World) (h : heap) (this : PocketbaseCollection)
         (recordId E F : string) (expand fields : option string),
    let base := baseUrl (h (pb_ref this)) in
    let name := collectionName this in
    let endpoint := record_endpoint base name recordId in
    getOne_apiUrl base name recordId (Some E) (Some F)
      = endpoint ++ "?expand=" ++ E ++ "&fields=" ++ F
    /\ getOne_apiUrl base name recordId (Some E) None
      = endpoint ++ "?expand=" ++ E
    /\ getOne_apiUrl base name recordId None (Some F)
      = endpoint ++ "?fields=" ++ F
    /\ getOne_apiUrl base name recordId None None = endpoint
    /\ map url_of (trace_of (getOne_try this recordId expand fields w h))
      = [Some (getOne_apiUrl base name recordId expand fields)].
Proof.
  intros w h this recordId E F expand fields base name endpoint.
  subst endpoint. unfold getOne_apiUrl, record_endpoint.
  repeat split; try (flatten_appends; reflexivity).
  rewrite getOne_try_run. reflexivity.
Qed.

(** ** Connectivity *)

(** C3: when the link is not up, [getList] calls neither [begin] nor
    [GET] nor any other transport primitive: it reads the WiFi status,
    logs, and returns the empty string. *)
Theorem getList_offline :
  forall (w : World) (h : heap) (this : PocketbaseCollection)
         (page perPage : N) (sort filter expand fields : option string)
         (skipTotal : bool),
    WiFi_status w <> WL_CONNECTED ->
    let r := getList this page perPage sort filter expand fields skipTotal w h in
    outcome_of r = Return EmptyString
    /\ trace_of r =
         [EvWiFiStatus (WiFi_status w); EvSerialPrintln "WiFi Disconnected"]
    /\ existsb is_transport_call (trace_of r) = false.
Proof.
  intros w h this page perPage sort filt expand fields skipTotal Hdown r.
  subst r. rewrite getList_run.
  apply wl_status_eqb_neq in Hdown. rewrite Hdown.
  repeat split.
Qed.

Lemma getList_offline_witness :
  let r := getList posts 1 30 None None None None false
             (serving WL_DISCONNECTED 200 body_abc true) demo_heap in
  outcome_of r = Return EmptyString
  /\ trace_of r =
       [EvWiFiStatus WL_DISCONNECTED; EvSerialPrintln "WiFi Disconnected"]
  /\ existsb is_transport_call (trace_of r) = false.
Proof.
  apply (getList_offline (serving WL_DISCONNECTED 200 body_abc true)
           demo_heap posts 1 30 None None None None false).
  simpl. discriminate.
Defined.

(** ** Results *)

(** C4: when the transport reports success, the body it returned is the
    result, unchanged: for [getList] when [GET] was called and answered a
    positive status, for [getOne] when the code decoded from the body is
    neither 404 nor 403. *)
Theorem success_body_verbatim :
  forall (w : World) (h : heap) (this : PocketbaseCollection)
         (page perPage : N) (sort filter expand fields : option string)
         (skipTotal : bool) (recordId : string) (expand1 fields1 : option string),
    let rl := getList this page perPage sort filter expand fields skipTotal w h in
    let url1 :=
      getOne_apiUrl (baseUrl (h (pb_ref this))) (collectionName this)
                    recordId expand1 fields1 in
    let body1 := Pocketbase_getRecord w url1 in
    (forall url code,
        In (EvHttpGET url code) (trace_of rl) -> 0 < code ->
        outcome_of rl = Return (HTTPClient_getString w url))
    /\ (json_code w body1 <> 404 -> json_code w body1 <> 403 ->
        outcome_of (getOne this recordId expand1 fields1 w h) = Return body1).
Proof.
  intros w h this page perPage sort filt expand fields skipTotal recordId
         expand1 fields1 rl url1 body1.
  split.
  - intros url code Hin Hpos. subst rl. revert Hin. rewrite getList_run.
    destruct (wl_status_eqb _ _).
    + destruct (_ >? 0) eqn:Hc; simpl; intros Hin.
      * repeat (destruct Hin as [Hin|Hin]; [try discriminate Hin|]);
          [|contradiction].
        now injection Hin as <- _.
      * repeat (destruct Hin as [Hin|Hin]; [try discriminate Hin|]);
          [|contradiction].
        injection Hin as _ Hcode. lia.
    + simpl. intros [Hin|[Hin|[]]]; discriminate Hin.
  - intros H404 H403. rewrite getOne_run. fold url1 body1.
    apply Z.eqb_neq in H404, H403. now rewrite H404, H403.
Qed.

Lemma success_body_verbatim_witness :
  let w := serving WL_CONNECTED 200 body_abc true in
  outcome_of (getList posts 1 30 None None None None false w demo_heap)
    = Return body_abc
  /\ outcome_of (getOne posts "r1" None None w demo_heap) = Return body_abc.
Proof.
  intros w.
  destruct (success_body_verbatim w demo_heap posts 1 30 None None None None
              false "r1" None None) as [HL HO].
  split.
  - apply (HL "http://pb.local:8090/api/collections/posts/records?page=1&perPage=30" 200).
    + simpl. right. right. left. reflexivity.
    + lia.
  - apply HO; vm_compute; discriminate.
Defined.

(** C5: a body whose code is 404 makes [getOne] throw the not-found
    domain error, a body whose code is 403 the forbidden one: the [try]
    block, having called [getRecord], ends with that exception in flight.
    The handler of [getOne] itself takes it: the run of [getOne] is the
    run of the block, then the line that the handler logs with the
    message of the exception, and the caller gets the empty string. *)
Theorem getOne_domain_errors :
  forall (w : World) (h : heap) (this : PocketbaseCollection)
         (recordId : string) (expand fields : option string),
    let url :=
      getOne_apiUrl (baseUrl (h (pb_ref this))) (collectionName this)
                    recordId expand fields in
    let body := Pocketbase_getRecord w url in
    (json_code w body = 404 ->
       getOne_try this recordId expand fields w h
       = (Throw not_found, h, [EvGetRecord url body])
       /\ is_PocketbaseArduinoException not_found = true
       /\ getOne this recordId expand fields w h
          = (Return EmptyString, h,
             [EvGetRecord url body;
              EvSerialPrintln
                ("Exception occurred during the request: " ++ what not_found)]))
    /\ (json_code w body = 403 ->
       getOne_try this recordId expand fields w h
       = (Throw forbidden, h, [EvGetRecord url body])
       /\ is_PocketbaseArduinoException forbidden = true
       /\ getOne this recordId expand fields w h
          = (Return EmptyString, h,
             [EvGetRecord url body;
              EvSerialPrintln
                ("Exception occurred during the request: " ++ what forbidden)])).
Proof.
  intros w h this recordId expand fields url body.
  split; intros Hcode; rewrite getOne_try_run, getOne_run;
    fold url body; rewrite Hcode; repeat split.
Qed.

Lemma getOne_domain_errors_witness :
  let w404 := serving WL_CONNECTED 404
                (error_body 404 "The requested resource wasn't found.") true in
  let w403 := serving WL_CONNECTED 403
                (error_body 403 "Only admins can access this action.") true in
  let url := "http://pb.local:8090/api/collections/posts/records/r1" in
  (getOne_try posts "r1" None None w404 demo_heap
   = (Throw not_found, demo_heap,
      [EvGetRecord url
         (error_body 404 "The requested resource wasn't found.")])
   /\ is_PocketbaseArduinoException not_found = true
   /\ getOne posts "r1" None None w404 demo_heap
      = (Return EmptyString, demo_heap,
         [EvGetRecord url
            (error_body 404 "The requested resource wasn't found.");
          EvSerialPrintln
            "Exception occurred during the request: Error: The requested resource wasn't found."]))
  /\ (getOne_try posts "r1" None None w403 demo_heap
     = (Throw forbidden, demo_heap,
        [EvGetRecord url
           (error_body 403 "Only admins can access this action.")])
     /\ is_PocketbaseArduinoException forbidden = true
     /\ getOne posts "r1" None None w403 demo_heap
        = (Return EmptyString, demo_heap,
           [EvGetRecord url
              (error_body 403 "Only admins can access this action.");
            EvSerialPrintln
              "Exception occurred during the request: Error: Only admins can access this action."])).
Proof.
  intros w404 w403 url. split.
  - apply (getOne_domain_errors w404 demo_heap posts "r1" None None).
    vm_compute. reflexivity.
  - apply (getOne_domain_errors w403 demo_heap posts "r1" None None).
    vm_compute. reflexivity.
Defined.

(** C6: [create] first calls [addRecord], with the name of the
    collection and its own arguments.  When the answer is a failure the
    [try] block ends with the domain error in flight, and the handler of
    [create] for that class takes it: it logs the message of the
    exception, and the caller gets the empty string.  When the answer is
    a success the block returns the empty string, nothing is logged, and
    the caller gets the empty string as well. *)
Theorem create_always_empty :
  forall (w : World) (h : heap) (this : PocketbaseCollection)
         (jsonData : string) (id expand fields : option string),
    let ok :=
      Pocketbase_addRecord w (collectionName this) jsonData id expand fields in
    let called :=
      EvAddRecord (collectionName this) jsonData id expand fields ok in
    create_try this jsonData id expand fields w h
    = (if ok then Return EmptyString else Throw create_failed, h, [called])
    /\ is_PocketbaseArduinoException create_failed = true
    /\ create this jsonData id expand fields w h
       = (Return EmptyString, h,
          if ok then [called]
          else [called; EvSerialPrintln (what create_failed)])
    /\ hd_error (trace_of (create this jsonData id expand fields w h))
       = Some called
    /\ outcome_of (create this jsonData id expand fields w h)
       = Return EmptyString.
Proof.
  intros w h this jsonData id expand fields ok called.
  rewrite create_run, create_try_run. fold ok. fold called.
  repeat split. destruct ok; reflexivity.
Qed.

(** ** Accessors of one client *)

Lemma heap_update_same (h : heap) (a : addr) (o : Pocketbase) :
  heap_update h a o a = o.
Proof. unfold heap_update. now rewrite Nat.eqb_refl. Qed.

(** Every URL that a call hands to the transport is the one built from
    the base URL in the heap, the accessor's name and the arguments. *)
Lemma perform_urls (w : World) (h : heap) (this : PocketbaseCollection)
    (c : call) (ev : event) (u : string) :
  In ev (trace_of (perform this c w h)) ->
  url_of ev = Some u ->
  Some u = request_url (baseUrl (h (pb_ref this))) (collectionName this) c.
Proof.
  destruct c; unfold perform, request_url.
  - rewrite getList_run.
    destruct (wl_status_eqb _ _); [destruct (_ >? 0)|]; simpl;
      intros Hin Hu;
      repeat (destruct Hin as [<-|Hin]; [simpl in Hu; congruence|]);
      contradiction.
  - rewrite getOne_run.
    destruct (_ =? 404); [|destruct (_ =? 403)]; simpl;
      intros Hin Hu;
      repeat (destruct Hin as [<-|Hin]; [simpl in Hu; congruence|]);
      contradiction.
  - rewrite create_run. simpl. intros Hin Hu.
    destruct (Pocketbase_addRecord _ _ _ _ _ _);
      repeat (destruct Hin as [<-|Hin]; [simpl in Hu; congruence|]);
      contradiction.
Qed.

(** C7: two accessors made from one client are independent.  Whatever
    calls are made, through either of them or through any other
    accessor, the heap is left as the constructor made it; so a call
    through the accessor for [x] behaves after them as it does before,
    and every URL it hands to the transport is built from the base URL,
    the name [x] and the arguments of that call alone (and likewise for
    [y]). *)
Theorem accessors_independent :
  forall (self : addr) (BASE x y : string) (h0 : heap)
         (script : list (PocketbaseCollection * call * World))
         (c : call) (w : World),
    let client := fst (PocketbaseArduino_new self BASE h0) in
    let h := snd (PocketbaseArduino_new self BASE h0) in
    let ax := collection client x in
    let ay := collection client y in
    let h' := run_script script h in
    h' = h
    /\ perform ax c w h' = perform ax c w h
    /\ perform ay c w h' = perform ay c w h
    /\ (forall ev u,
          In ev (trace_of (perform ax c w h')) -> url_of ev = Some u ->
          Some u = request_url BASE x c)
    /\ (forall ev u,
          In ev (trace_of (perform ay c w h')) -> url_of ev = Some u ->
          Some u = request_url BASE y c).
Proof.
  intros self BASE x y h0 script c w client h ax ay h'.
  assert (E : h' = h) by apply run_script_heap.
  rewrite E. repeat split.
  - intros ev u Hin Hu.
    pose proof (perform_urls w h ax c ev u Hin Hu) as H.
    simpl in H. unfold h in H. simpl in H.
    now rewrite heap_update_same in H.
  - intros ev u Hin Hu.
    pose proof (perform_urls w h ay c ev u Hin Hu) as H.
    simpl in H. unfold h in H. simpl in H.
    now rewrite heap_update_same in H.
Qed.

Lemma accessors_independent_witness :
  Some "http://pb.local:8090/api/collections/x/records?page=1&perPage=30"
  = request_url "http://pb.local:8090" "x"
      (CallGetList 1 30 None None None None false).
Proof.
  pose (wy := serving WL_CONNECTED 200
                (error_body 404 "The requested resource wasn't found.") false).
  pose (ay := collection demo_client "y").
  destruct (accessors_independent 0%nat "http://pb.local:8090" "x" "y" heap0
              [(ay, CallGetOne "r1" (Some "author") None, wy);
               (ay, CallCreate "{}" None None None, wy);
               (ay, CallGetList 3 10 (Some "-created") None None None true, wy)]
              (CallGetList 1 30 None None None None false)
              (serving WL_CONNECTED 200 body_abc true))
    as (_ & _ & _ & Hx & _).
  apply (Hx (EvHttpBegin
               "http://pb.local:8090/api/collections/x/records?page=1&perPage=30")).
  - simpl. right. left. reflexivity.
  - reflexivity.
Defined.

(** ** The HTTP client of [getList] *)

(** [begin] is called exactly when the link is up, [end] only when in
    addition the status is not positive. *)
Lemma getList_begin_end (w : World) (h : heap) (this : PocketbaseCollection)
    (page perPage : N) (sort filter expand fields : option string)
    (skipTotal : bool) :
  let url :=
    getList_apiUrl (baseUrl (h (pb_ref this))) (collectionName this)
                   page perPage sort filter expand fields skipTotal in
  let t := trace_of (getList this page perPage sort filter expand fields
                             skipTotal w h) in
  existsb is_http_begin t = wl_status_eqb (WiFi_status w) WL_CONNECTED
  /\ existsb is_http_end t
     = wl_status_eqb (WiFi_status w) WL_CONNECTED
       && negb (HTTPClient_GET w url >? 0).
Proof.
  intros url t. subst t. rewrite getList_run. fold url.
  destruct (wl_status_eqb _ _); [destruct (_ >? 0)|]; split; reflexivity.
Qed.

(** C8 (the code departs from it): on the success path [getList] opens
    the HTTP client with [begin] and returns the body without calling
    [end]: the [return] on line 114 leaves the block before line 123, and
    only the destructors of the two locals run.  The call to [end] is
    reached on the failure path only. *)
Theorem getList_success_skips_end :
  let w := serving WL_CONNECTED 200 body_abc true in
  let url :=
    "http://pb.local:8090/api/collections/posts/records?page=1&perPage=30" in
  let r := getList posts 1 30 None None None None false w demo_heap in
  outcome_of r = Return body_abc
  /\ trace_of r =
       [EvWiFiStatus WL_CONNECTED; EvHttpBegin url; EvHttpGET url 200;
        EvSerialPrint "HTTP Response code: "; EvSerialPrintln "200";
        EvHttpGetString body_abc; EvHttpClientDestroy; EvWiFiClientDestroy]
  /\ existsb is_http_begin (trace_of r) = true
  /\ existsb is_http_end (trace_of r) = false
  /\ existsb is_http_end
       (trace_of (getList posts 1 30 None None None None false
                    (serving WL_CONNECTED (-1) body_abc true) demo_heap))
     = true.
Proof. repeat split. Qed.

(** ** The error probe of [getOne] *)

(** C9: [getOne] fails exactly for the codes 404 and 403; for any other
    decoded code, among them 0 (what the decoder gives for a body without
    a usable code field), 400 and 500, the body is returned as it is. *)
Theorem getOne_probe_only_404_403 :
  forall (w : World) (h : heap) (this : PocketbaseCollection)
         (recordId : string) (expand fields : option string),
    let url :=
      getOne_apiUrl (baseUrl (h (pb_ref this))) (collectionName this)
                    recordId expand fields in
    let body := Pocketbase_getRecord w url in
    let code := json_code w body in
    outcome_of (getOne this recordId expand fields w h)
      = (if (code =? 404) || (code =? 403)
         then Return EmptyString else Return body)
    /\ outcome_of (getOne_try this recordId expand fields w h)
      = (if code =? 404 then Throw not_found
         else if code =? 403 then Throw forbidden
         else Return body)
    /\ (code = 0 \/ code = 400 \/ code = 500 ->
        outcome_of (getOne this recordId expand fields w h) = Return body).
Proof.
  intros w h this recordId expand fields url body code.
  rewrite getOne_run, getOne_try_run. fold url body code.
  repeat split.
  - destruct (code =? 404); [|destruct (code =? 403)]; reflexivity.
  - intros [-> | [-> | ->]]; reflexivity.
Qed.

Lemma getOne_probe_only_404_403_witness :
  outcome_of (getOne posts "r1" None None
                (serving WL_CONNECTED 500
                   (error_body 500 "Something went wrong.") true) demo_heap)
  = Return (error_body 500 "Something went wrong.")
  /\ outcome_of (getOne posts "r1" None None
                   (serving WL_CONNECTED 200 "not json" true) demo_heap)
     = Return "not json".
Proof.
  split.
  - apply (getOne_probe_only_404_403
             (serving WL_CONNECTED 500
                (error_body 500 "Something went wrong.") true)
             demo_heap posts "r1" None None).
    right. right. vm_compute. reflexivity.
  - apply (getOne_probe_only_404_403
             (serving WL_CONNECTED 200 "not json" true)
             demo_heap posts "r1" None None).
    left. vm_compute. reflexivity.
Defined.

(** C10: [getOne] and [create] never read the WiFi status: the first
    thing each does is to call the transport ([getRecord], [addRecord]),
    and the whole run is the same whatever the status of the link. *)
Theorem getOne_create_ignore_connectivity :
  forall (w : World) (h : heap) (this : PocketbaseCollection)
         (recordId jsonData : string) (id expand fields : option string)
         (st : wl_status_t),
    let url :=
      getOne_apiUrl (baseUrl (h (pb_ref this))) (collectionName this)
                    recordId expand fields in
    let tg := trace_of (getOne this recordId expand fields w h) in
    let tc := trace_of (create this jsonData id expand fields w h) in
    hd_error tg = Some (EvGetRecord url (Pocketbase_getRecord w url))
    /\ existsb is_connectivity_check tg = false
    /\ hd_error tc
       = Some (EvAddRecord (collectionName this) jsonData id expand fields
                 (Pocketbase_addRecord w (collectionName this) jsonData id
                                       expand fields))
    /\ existsb is_connectivity_check tc = false
    /\ getOne this recordId expand fields (set_WiFi_status w st) h
       = getOne this recordId expand fields w h
    /\ create this jsonData id expand fields (set_WiFi_status w st) h
       = create this jsonData id expand fields w h.
Proof.
  intros w h this recordId jsonData id expand fields st url tg tc.
  subst tg tc. rewrite !getOne_run, !create_run. fold url. simpl.
  repeat split.
  - destruct (_ =? 404); [|destruct (_ =? 403)]; reflexivity.
  - destruct (_ =? 404); [|destruct (_ =? 403)]; reflexivity.
  - destruct (Pocketbase_addRecord _ _ _ _ _ _); reflexivity.
Qed.

(** * Further properties of the operations *)

(** ** The paths of [getList] *)

(** X1: when the link is up and [GET] answers a status that is not
    positive, [getList] logs the status, never reads a body, calls
    [end], and returns the empty string. *)
Theorem getList_http_failure :
  forall (w : World) (h : heap) (this : PocketbaseCollection)
         (page perPage : N) (sort filter expand fields : option string)
         (skipTotal : bool),
    let url :=
      getList_apiUrl (baseUrl (h (pb_ref this))) (collectionName this)
                     page perPage sort filter expand fields skipTotal in
    let code := HTTPClient_GET w url in
    WiFi_status w = WL_CONNECTED ->
    code <= 0 ->
    let r := getList this page perPage sort filter expand fields skipTotal w h in
    outcome_of r = Return EmptyString
    /\ trace_of r =
         [EvWiFiStatus WL_CONNECTED; EvHttpBegin url; EvHttpGET url code;
          EvSerialPrint "Error code: "; EvSerialPrintln (String_of_int code);
          EvHttpEnd; EvHttpClientDestroy; EvWiFiClientDestroy].
Proof.
  intros w h this page perPage sort filt expand fields skipTotal url code
         Hup Hcode r.
  subst r. rewrite getList_run. fold url code. rewrite Hup. simpl.
  assert (E : (code >? 0) = false).
  { rewrite Z.gtb_ltb. apply Z.ltb_ge. exact Hcode. }
  rewrite E. split; reflexivity.
Qed.

Lemma getList_http_failure_witness :
  let w := serving WL_CONNECTED (-1) body_abc true in
  let url :=
    "http://pb.local:8090/api/collections/posts/records?page=1&perPage=30" in
  let r := getList posts 1 30 None None None None false w demo_heap in
  outcome_of r = Return EmptyString
  /\ trace_of r =
       [EvWiFiStatus WL_CONNECTED; EvHttpBegin url; EvHttpGET url (-1);
        EvSerialPrint "Error code: "; EvSerialPrintln (String_of_int (-1));
        EvHttpEnd; EvHttpClientDestroy; EvWiFiClientDestroy].
Proof.
  apply (getList_http_failure (serving WL_CONNECTED (-1) body_abc true)
           demo_heap posts 1 30 None None None None false).
  - reflexivity.
  - simpl. lia.
Defined.

(** X2: the result of [getList] is the body when the link is up and the
    status is positive, and the empty string in every other case: the
    caller cannot tell a missing link from an HTTP failure or from an
    empty body. *)
Theorem getList_result :
  forall (w : World) (h : heap) (this : PocketbaseCollection)
         (page perPage : N) (sort filter expand fields : option string)
         (skipTotal : bool),
    let url :=
      getList_apiUrl (baseUrl (h (pb_ref this))) (collectionName this)
                     page perPage sort filter expand fields skipTotal in
    outcome_of (getList this page perPage sort filter expand fields
                        skipTotal w h)
    = Return (if wl_status_eqb (WiFi_status w) WL_CONNECTED
                 && (HTTPClient_GET w url >? 0)
              then HTTPClient_getString w url
              else EmptyString).
Proof.
  intros w h this page perPage sort filt expand fields skipTotal url.
  rewrite getList_run. fold url.
  destruct (wl_status_eqb _ _); [destruct (_ >? 0)|]; reflexivity.
Qed.

(** ** One attempt per call *)

Lemma perform_requests (w : World) (h : heap) (this : PocketbaseCollection)
    (c : call) :
  count_requests (trace_of (perform this c w h))
  = if issues_request (this, c, w) then 1%nat else 0%nat.
Proof.
  destruct c; unfold perform, issues_request.
  - rewrite getList_run.
    destruct (wl_status_eqb _ _); [destruct (_ >? 0)|]; reflexivity.
  - rewrite getOne_run.
    destruct (_ =? 404); [|destruct (_ =? 403)]; reflexivity.
  - rewrite create_run.
    destruct (Pocketbase_addRecord _ _ _ _ _ _); reflexivity.
Qed.

Lemma count_requests_app (t1 t2 : trace) :
  count_requests (t1 ++ t2)%list
  = (count_requests t1 + count_requests t2)%nat.
Proof.
  unfold count_requests. now rewrite filter_app, length_app.
Qed.

(** X4: a call is a single attempt, never repeated: a script puts on the
    wire exactly one request for each of its calls, except the [getList]
    calls made without a link, which put none; so never more requests
    than calls. *)
Theorem script_requests :
  forall (script : list (PocketbaseCollection * call * World)) (h : heap),
    count_requests (script_trace script h)
    = List.length (List.filter issues_request script)
    /\ (count_requests (script_trace script h) <= List.length script)%nat.
Proof.
  intros script h.
  assert (E : count_requests (script_trace script h)
              = List.length (List.filter issues_request script)).
  { revert h. induction script as [|[[this c] w] rest IH]; intros h;
      cbn [script_trace List.filter].
    - reflexivity.
    - rewrite count_requests_app, perform_requests, perform_heap, IH.
      destruct (issues_request (this, c, w)); reflexivity. }
  split; [exact E|].
  rewrite E. apply filter_length_le.
Qed.

(** ** What the URL tells, and what it does not *)

Arguments String_of_uint : simpl never.

Lemma append_inv_head (p a b : string) : p ++ a = p ++ b -> a = b.
Proof.
  induction p as [|c p IH]; simpl; intros H.
  - exact H.
  - injection H as H. now apply IH.
Qed.

Lemma cut_at_plain (sep : ascii) (k : string) :
  has_char sep k = false -> cut_at sep k = (k, EmptyString).
Proof.
  induction k as [|c k IH]; simpl.
  - reflexivity.
  - intros H. apply orb_false_iff in H as [Hc Hk].
    rewrite Hc, (IH Hk). reflexivity.
Qed.

Lemma cut_at_render_more (v : string) (ps : list param) :
  has_char "&" v = false -> fst (cut_at "&" (v ++ render_more ps)) = v.
Proof.
  intros Hv. destruct ps as [|[k x] ps]; simpl.
  - now rewrite append_nil_r, cut_at_plain.
  - now rewrite cut_at_append.
Qed.

Lemma N_to_uint_nonnil (n : N) : N.to_uint n <> Decimal.Nil.
Proof.
  destruct n; simpl.
  - discriminate.
  - apply DecimalPos.Unsigned.to_uint_nonnil.
Qed.

(** The decimal rendering tells the number. *)
Lemma String_of_uint_inj (a b : N) :
  String_of_uint a = String_of_uint b -> a = b.
Proof.
  unfold String_of_uint. intros H.
  apply (f_equal NilZero.uint_of_string) in H.
  rewrite !NilZero.usu in H by apply N_to_uint_nonnil.
  injection H as H. now apply DecimalN.Unsigned.to_uint_inj.
Qed.

(** X5: the values are spliced into the URL as they are, so different
    arguments can give the same URL: a record id that carries a query
    string is the same request as the plain id with [expand], and a
    [sort] value that carries an ampersand and a [filter] is the same
    request as the two parameters given apart. *)
Theorem unescaped_values_collide :
  forall (base name recordId e s f : string) (page perPage : N)
         (expand fields : option string) (skipTotal : bool),
    getOne_apiUrl base name (recordId ++ "?expand=" ++ e) None None
    = getOne_apiUrl base name recordId (Some e) None
    /\ getList_apiUrl base name page perPage
         (Some (s ++ "&filter=" ++ f)) None expand fields skipTotal
       = getList_apiUrl base name page perPage
           (Some s) (Some f) expand fields skipTotal.
Proof.
  intros base name recordId e s f page perPage expand fields skipTotal.
  split.
  - unfold getOne_apiUrl. flatten_appends. reflexivity.
  - unfold getList_apiUrl.
    destruct expand, fields, skipTotal; flatten_appends; reflexivity.
Qed.

(** X6: the page and the page size can always be read off the URL: two
    calls for the same collection that build the same URL have the same
    [page] and the same [perPage], whatever their other arguments. *)
Theorem getList_url_tells_page :
  forall (base name : string) (page1 perPage1 page2 perPage2 : N)
         (sort1 filter1 expand1 fields1 sort2 filter2 expand2 fields2
            : option string)
         (skipTotal1 skipTotal2 : bool),
    getList_apiUrl base name page1 perPage1 sort1 filter1 expand1 fields1
                   skipTotal1
    = getList_apiUrl base name page2 perPage2 sort2 filter2 expand2 fields2
                     skipTotal2 ->
    page1 = page2 /\ perPage1 = perPage2.
Proof.
  intros base name page1 perPage1 page2 perPage2
         sort1 filter1 expand1 fields1 sort2 filter2 expand2 fields2
         skipTotal1 skipTotal2 H.
  rewrite !getList_apiUrl_spec in H. apply append_inv_head in H.
  unfold getList_query_spec in H. cbn [app render_query] in H.
  simpl append in H. repeat (injection H as H).
  apply (f_equal (cut_at "&")) in H.
  rewrite !cut_at_append in H by apply String_of_uint_plain.
  injection H as Hpage H. repeat (injection H as H).
  apply (f_equal (fun s => fst (cut_at "&" s))) in H.
  rewrite !cut_at_render_more in H by apply String_of_uint_plain.
  split; now apply String_of_uint_inj.
Qed.

Lemma getList_url_tells_page_witness :
  (2 = 2 /\ 5 = 5)%N.
Proof.
  apply (getList_url_tells_page "http://pb.local:8090" "posts" 2 5 2 5
           (Some "a&filter=b") None None None (Some "a") (Some "b") None None
           false false).
  reflexivity.
Defined.

Lemma supplied_tail_inj (s1 f1 e1 d1 s2 f2 e2 d2 : option string)
    (k1 k2 : bool) :
  (supplied "sort" s1 ++ supplied "filter" f1 ++ supplied "expand" e1
     ++ supplied "fields" d1
     ++ (if k1 then [("skipTotal", "1")] else []))%list
  = (supplied "sort" s2 ++ supplied "filter" f2 ++ supplied "expand" e2
       ++ supplied "fields" d2
       ++ (if k2 then [("skipTotal", "1")] else []))%list ->
  s1 = s2 /\ f1 = f2 /\ e1 = e2 /\ d1 = d2 /\ k1 = k2.
Proof.
  destruct s1, s2, f1, f2, e1, e2, d1, d2, k1, k2; simpl; intros H;
    try discriminate H; inversion H; subst; repeat split; reflexivity.
Qed.

(** X7: when no value holds an ampersand, the URL tells every argument:
    two calls of [getList] for the same collection that build the same
    URL were given the same page, page size, sort, filter, expand, fields
    and skipTotal (a null value and an empty one are told apart too). *)
Theorem getList_url_tells_all :
  forall (base name : string) (page1 perPage1 page2 perPage2 : N)
         (sort1 filter1 expand1 fields1 sort2 filter2 expand2 fields2
            : option string)
         (skipTotal1 skipTotal2 : bool),
    plain_value sort1 = true -> plain_value filter1 = true ->
    plain_value expand1 = true -> plain_value fields1 = true ->
    plain_value sort2 = true -> plain_value filter2 = true ->
    plain_value expand2 = true -> plain_value fields2 = true ->
    getList_apiUrl base name page1 perPage1 sort1 filter1 expand1 fields1
                   skipTotal1
    = getList_apiUrl base name page2 perPage2 sort2 filter2 expand2 fields2
                     skipTotal2 ->
    page1 = page2 /\ perPage1 = perPage2 /\ sort1 = sort2
    /\ filter1 = filter2 /\ expand1 = expand2 /\ fields1 = fields2
    /\ skipTotal1 = skipTotal2.
Proof.
  intros base name page1 perPage1 page2 perPage2
         sort1 filter1 expand1 fields1 sort2 filter2 expand2 fields2
         skipTotal1 skipTotal2 Hs1 Hf1 He1 Hd1 Hs2 Hf2 He2 Hd2 H.
  rewrite !getList_apiUrl_spec in H. apply append_inv_head in H.
  apply (f_equal parse_query) in H.
  rewrite !getList_query_parses in H by assumption.
  unfold getList_query_spec in H. cbn [app] in H.
  injection H as Hpage HperPage Htail.
  apply String_of_uint_inj in Hpage, HperPage.
  apply supplied_tail_inj in Htail as (-> & -> & -> & -> & ->).
  now subst.
Qed.

Lemma getList_url_tells_all_witness :
  (1 = 1 /\ 30 = 30)%N /\ Some "-created" = Some "-created"
  /\ @None string = None /\ Some EmptyString = Some EmptyString
  /\ @None string = None /\ true = true.
Proof.
  pose proof (getList_url_tells_all "http://pb.local:8090" "posts" 1 30 1 30
                (Some "-created") None (Some EmptyString) None
                (Some "-created") None (Some EmptyString) None true true)
    as H.
  destruct H as (H1 & H2 & H3 & H4 & H5 & H6 & H7); try reflexivity.
  repeat split; assumption.
Defined.

(** ** Two clients *)

Lemma heap_update_other (h : heap) (a b : addr) (o : Pocketbase) :
  b <> a -> heap_update h a o b = h b.
Proof.
  intros H. unfold heap_update.
  now rewrite (proj2 (Nat.eqb_neq b a) H).
Qed.

(** X8: two clients do not interfere: when a second client is made at
    another address, the accessors of the first still build their URLs
    from the first base URL, and those of the second from the second. *)
Theorem clients_do_not_interfere :
  forall (self1 self2 : addr) (BASE1 BASE2 x1 x2 : string) (h0 : heap)
         (c : call) (w : World),
    self1 <> self2 ->
    let client1 := fst (PocketbaseArduino_new self1 BASE1 h0) in
    let h1 := snd (PocketbaseArduino_new self1 BASE1 h0) in
    let client2 := fst (PocketbaseArduino_new self2 BASE2 h1) in
    let h2 := snd (PocketbaseArduino_new self2 BASE2 h1) in
    (forall ev u,
        In ev (trace_of (perform (collection client1 x1) c w h2)) ->
        url_of ev = Some u -> Some u = request_url BASE1 x1 c)
    /\ (forall ev u,
        In ev (trace_of (perform (collection client2 x2) c w h2)) ->
        url_of ev = Some u -> Some u = request_url BASE2 x2 c).
Proof.
  intros self1 self2 BASE1 BASE2 x1 x2 h0 c w Hne client1 h1 client2 h2.
  split; intros ev u Hin Hu.
  - pose proof (perform_urls w h2 _ c ev u Hin Hu) as H.
    unfold h2, h1 in H. simpl in H.
    now rewrite heap_update_other, heap_update_same in H by exact Hne.
  - pose proof (perform_urls w h2 _ c ev u Hin Hu) as H.
    unfold h2 in H. simpl in H.
    now rewrite heap_update_same in H.
Qed.

Lemma clients_do_not_interfere_witness :
  Some "http://pb.local:8090/api/collections/posts/records/r1"
  = request_url "http://pb.local:8090" "posts" (CallGetOne "r1" None None).
Proof.
  destruct (clients_do_not_interfere 0%nat 1%nat "http://pb.local:8090"
              "http://other.local" "posts" "users" heap0
              (CallGetOne "r1" None None)
              (serving WL_CONNECTED 200 body_abc true))
    as [H1 _].
  - discriminate.
  - apply (H1 (EvGetRecord
                 "http://pb.local:8090/api/collections/posts/records/r1"
                 body_abc)).
    + simpl. left. reflexivity.
    + reflexivity.
Defined.

(** ** The serial console *)

(** X9: what each operation writes to the serial console, for every
    combination of answers that the collaborators return (a collaborator
    that throws is outside the model, and so is the line that the
    handler of [getList] would then write).  On each of its three paths
    [getList] writes one line: the status after [HTTP Response code: ]
    when it is positive, after [Error code: ] when it is not, and
    [WiFi Disconnected] without a link.  [getOne] and [create] are silent
    when they succeed; a domain error of [getOne] is written after the
    prefix of the general handler, the failure of [create] is written
    bare, its own handler coming first. *)
Theorem console_output :
  forall (w : World) (h : heap) (this : PocketbaseCollection)
         (page perPage : N) (sort filter expand fields : option string)
         (skipTotal : bool) (recordId jsonData : string)
         (id : option string),
    let base := baseUrl (h (pb_ref this)) in
    let name := collectionName this in
    let urlL :=
      getList_apiUrl base name page perPage sort filter expand fields
                     skipTotal in
    let code := HTTPClient_GET w urlL in
    let urlO := getOne_apiUrl base name recordId expand fields in
    let probe := json_code w (Pocketbase_getRecord w urlO) in
    console (trace_of (getList this page perPage sort filter expand fields
                               skipTotal w h))
    = (if wl_status_eqb (WiFi_status w) WL_CONNECTED then
         (if code >? 0 then "HTTP Response code: " else "Error code: ")
           ++ String_of_int code ++ crlf
       else "WiFi Disconnected" ++ crlf)
    /\ console (trace_of (getOne this recordId expand fields w h))
       = (if probe =? 404 then
            "Exception occurred during the request: Error: The requested resource wasn't found."
              ++ crlf
          else if probe =? 403 then
            "Exception occurred during the request: Error: Only admins can access this action."
              ++ crlf
          else EmptyString)
    /\ console (trace_of (create this jsonData id expand fields w h))
       = (if Pocketbase_addRecord w name jsonData id expand fields
          then EmptyString
          else "Error: Failed to create record." ++ crlf).
Proof.
  intros w h this page perPage sort filt expand fields skipTotal recordId
         jsonData id base name urlL code urlO probe.
  rewrite getList_run, getOne_run, create_run.
  fold base name. fold urlL urlO. fold code probe.
  repeat split.
  - destruct (wl_status_eqb _ _); [destruct (code >? 0)|]; reflexivity.
  - destruct (probe =? 404); [|destruct (probe =? 403)]; reflexivity.
  - destruct (Pocketbase_addRecord _ _ _ _ _ _); reflexivity.
Qed.

(** ** The locals of [getList] *)

(** X10: the HTTP client and the WiFi client that [getList] declares
    once the link is up are destroyed before the call returns, on the
    success path as on the failure path, the HTTP client first; the two
    destructors are the last events of the call, after [begin].  Without
    a link neither object is made and nothing is destroyed. *)
Theorem getList_locals_destroyed :
  forall (w : World) (h : heap) (this : PocketbaseCollection)
         (page perPage : N) (sort filter expand fields : option string)
         (skipTotal : bool),
    let t := trace_of (getList this page perPage sort filter expand fields
                               skipTotal w h) in
    (WiFi_status w = WL_CONNECTED ->
     exists t0,
       t = (t0 ++ [EvHttpClientDestroy; EvWiFiClientDestroy])%list
       /\ existsb is_destroy t0 = false
       /\ existsb is_http_begin t0 = true)
    /\ (WiFi_status w <> WL_CONNECTED -> existsb is_destroy t = false).
Proof.
  intros w h this page perPage sort filt expand fields skipTotal t.
  subst t. rewrite getList_run. split.
  - intros ->. simpl.
    destruct (_ >? 0).
    + eexists [_; _; _; _; _; _]. repeat split.
    + eexists [_; _; _; _; _; _]. repeat split.
  - intros Hdown. apply wl_status_eqb_neq in Hdown. now rewrite Hdown.
Qed.

Lemma getList_locals_destroyed_witness :
  (exists t0,
      trace_of (getList posts 1 30 None None None None false
                  (serving WL_CONNECTED 200 body_abc true) demo_heap)
      = (t0 ++ [EvHttpClientDestroy; EvWiFiClientDestroy])%list
      /\ existsb is_destroy t0 = false
      /\ existsb is_http_begin t0 = true)
  /\ existsb is_destroy
       (trace_of (getList posts 1 30 None None None None false
                    (serving WL_IDLE_STATUS 200 body_abc true) demo_heap))
     = false.
Proof.
  split.
  - apply (getList_locals_destroyed (serving WL_CONNECTED 200 body_abc true)
             demo_heap posts 1 30 None None None None false).
    reflexivity.
  - apply (getList_locals_destroyed (serving WL_IDLE_STATUS 200 body_abc true)
             demo_heap posts 1 30 None None None None false).
    simpl. discriminate.
Defined.

(** ** What a run depends on *)

(** X11: a run is decided by the few answers it asks for.  [getList]
    depends on the WiFi status and on what the HTTP client answers for
    the one URL it builds, never on the JSON decoder: it does not look
    into the body.  [getOne] depends on what [getRecord] answers for its
    URL and on the code decoded from that body; [create] on the answer of
    [addRecord] for its arguments. *)
Theorem runs_depend_on :
  forall (w1 w2 : World) (h : heap) (this : PocketbaseCollection)
         (page perPage : N) (sort filter expand fields : option string)
         (skipTotal : bool) (recordId jsonData : string)
         (id : option string),
    let base := baseUrl (h (pb_ref this)) in
    let name := collectionName this in
    let urlL :=
      getList_apiUrl base name page perPage sort filter expand fields
                     skipTotal in
    let urlO := getOne_apiUrl base name recordId expand fields in
    (WiFi_status w1 = WiFi_status w2 ->
     HTTPClient_GET w1 urlL = HTTPClient_GET w2 urlL ->
     HTTPClient_getString w1 urlL = HTTPClient_getString w2 urlL ->
     getList this page perPage sort filter expand fields skipTotal w1 h
     = getList this page perPage sort filter expand fields skipTotal w2 h)
    /\ (Pocketbase_getRecord w1 urlO = Pocketbase_getRecord w2 urlO ->
        json_code w1 (Pocketbase_getRecord w1 urlO)
        = json_code w2 (Pocketbase_getRecord w1 urlO) ->
        getOne this recordId expand fields w1 h
        = getOne this recordId expand fields w2 h)
    /\ (Pocketbase_addRecord w1 name jsonData id expand fields
        = Pocketbase_addRecord w2 name jsonData id expand fields ->
        create this jsonData id expand fields w1 h
        = create this jsonData id expand fields w2 h).
Proof.
  intros w1 w2 h this page perPage sort filt expand fields skipTotal
         recordId jsonData id base name urlL urlO.
  repeat split.
  - intros Hst Hget Hbody. rewrite !getList_run.
    fold base name. fold urlL. now rewrite Hst, Hget, Hbody.
  - intros Hrec Hcode. rewrite !getOne_run.
    fold base name. fold urlO. now rewrite <- Hrec, Hcode.
  - intros Hadd. rewrite !create_run. fold name. now rewrite Hadd.
Qed.

Lemma runs_depend_on_witness :
  let w1 := serving WL_CONNECTED 200 (error_body 404 "gone") true in
  let w2 :=
    {| WiFi_status := WL_CONNECTED;
       HTTPClient_GET := fun _ => 200;
       HTTPClient_getString := fun _ => error_body 404 "gone";
       Pocketbase_getRecord := fun _ => body_abc;
       Pocketbase_addRecord := fun _ _ _ _ _ => false;
       json_code := fun _ => 7 |} in
  getList posts 1 30 None None None None false w1 demo_heap
  = getList posts 1 30 None None None None false w2 demo_heap.
Proof.
  intros w1 w2.
  apply (runs_depend_on w1 w2 demo_heap posts 1 30 None None None None false
           "r1" "{}" None); reflexivity.
Defined.

(** ** The query string of [getOne] *)

(** X12: the nested tests of [getOne] treat [expand] and [fields] as two
    independent parameters: its URL is the record endpoint followed by
    the same rendering as for [getList] (a question mark before the first
    given parameter, an ampersand before the next) of those of the two
    that are not null; and the record endpoint is the records endpoint of
    [getList], a slash and the record id. *)
Theorem getOne_query_independent :
  forall (base name recordId : string) (expand fields : option string),
    getOne_apiUrl base name recordId expand fields
    = record_endpoint base name recordId
        ++ render_query (supplied "expand" expand ++ supplied "fields" fields)
    /\ record_endpoint base name recordId
       = records_endpoint base name ++ "/" ++ recordId.
Proof.
  intros base name recordId expand fields.
  unfold getOne_apiUrl, record_endpoint, records_endpoint.
  split.
  - destruct expand, fields; flatten_appends; reflexivity.
  - flatten_appends. reflexivity.
Qed.
